(** * Configuration helpers of the generic property package

    A shallow embedding of
    [idaes/generic_models/properties/core/generic/utility.py]:
    [get_method], [get_component_object], [get_bounds_from_config] and
    [set_param_value], together with the fragment of the Python object
    model these functions rely on (attribute lookup, subscripting, [len],
    [callable], [isinstance]), and the properties of the specification
    stated and proved over that embedding. *)

From Stdlib Require Import QArith Ascii.
From stdpp Require Import gmap strings list fin_maps.

Local Open Scope string_scope.

(* ===================================================================== *)
(** ** Python values, exceptions and outcomes *)
(* ===================================================================== *)

(** Values a configuration can hold.  A [VObj] is any object with an
    attribute namespace: [is_module] answers
    [isinstance(o, types.ModuleType)], [is_callable] answers [callable(o)],
    [ident] is the module's [__name__] (for a module) or the name of the
    object's type, and [attrs] is what [getattr] finds.  Functions, classes
    and instances are all [VObj]s; numbers are exact rationals (the module
    performs no arithmetic of its own, it only hands numbers to the unit
    conversion facility). *)
#[warnings="-register-all"]
Inductive value : Type :=
  | VNone
  | VNum (q : Q)
  | VStr (s : string)
  | VUnits (u : string)
  | VTuple (items : list value)
  | VList (items : list value)
  | VDict (entries : gmap string value)
  | VObj (is_module is_callable : bool) (ident : string)
         (attrs : gmap string value).

(** A subscript [c[k]]: the source subscripts with integer literals
    ([var_config[0]], [p_data[1]]) and with strings ([state], [param],
    [index]). *)
Inductive subscript : Type :=
  | SInt (i : nat)
  | SStr (s : string).

(** A component registered on a parameter block; only its [config] is read. *)
Record component : Type := Component {
  comp_config : gmap string value
}.

(** [self.params]: the parameter block with its own [config] and the
    registry behind [get_component]. *)
Record parameter_block : Type := ParameterBlock {
  params_config : gmap string value;
  params_components : gmap string component
}.

(** [self] of [get_method], [b] of [get_bounds_from_config]: a block with a
    display [name] and a [params] attribute. *)
Record property_block : Type := PropertyBlock {
  pb_name : string;
  pb_params : parameter_block
}.

(** Exceptions.  [AttributeError] and [ConfigurationError] carry their
    message; [GenericPropertyPackageError] stores [block] and [prop] as its
    [__init__] does. *)
Inductive exn : Type :=
  | AttributeError (msg : string)
  | KeyError (key : subscript)
  | IndexError
  | TypeError
  | GenericPropertyPackageError (block : property_block) (prop : string)
  | ConfigurationError (msg : string)
  | ComponentLookupError (comp : string)
  | UnitsError (msg : string).

(** The result of running a piece of Python: a value or a raised exception. *)
Inductive outcome (A : Type) : Type :=
  | Return (a : A)
  | Raise (e : exn).

Arguments Return {A} a.
Arguments Raise {A} e.

#[global] Instance outcome_ret : MRet outcome := fun _ a => Return a.
#[global] Instance outcome_bind : MBind outcome := fun _ _ f m =>
  match m with
  | Return a => f a
  | Raise e => Raise e
  end.

(** Message of the [AttributeError] the interpreter raises when attribute
    lookup fails: modules report their name, other objects their type. *)
Definition no_attribute_msg (is_module : bool) (owner attr : string) : string :=
  if is_module
  then "module '" +:+ owner +:+ "' has no attribute '" +:+ attr +:+ "'"
  else "'" +:+ owner +:+ "' object has no attribute '" +:+ attr +:+ "'".

Definition type_name (v : value) : string :=
  match v with
  | VNone => "NoneType"
  | VNum _ => "float"
  | VStr _ => "str"
  | VUnits _ => "_PyomoUnit"
  | VTuple _ => "tuple"
  | VList _ => "list"
  | VDict _ => "dict"
  | VObj _ _ ident _ => ident
  end.

(** [getattr(v, a)] *)
Definition getattr (v : value) (a : string) : outcome value :=
  match v with
  | VObj m _ ident attrs =>
      match attrs !! a with
      | Some x => Return x
      | None => Raise (AttributeError (no_attribute_msg m ident a))
      end
  | _ => Raise (AttributeError (no_attribute_msg false (type_name v) a))
  end.

(** Attribute lookup on a configuration block. *)
Definition config_getattr (cfg : gmap string value) (a : string)
  : outcome value :=
  match cfg !! a with
  | Some x => Return x
  | None => Raise (AttributeError (no_attribute_msg false "ConfigBlock" a))
  end.

(** [v is None] *)
Definition is_None (v : value) : bool :=
  match v with VNone => true | _ => false end.

(** [isinstance(v, types.ModuleType)] *)
Definition isinstance_module (v : value) : bool :=
  match v with VObj m _ _ _ => m | _ => false end.

(** [isinstance(v, tuple)] *)
Definition isinstance_tuple (v : value) : bool :=
  match v with VTuple _ => true | _ => false end.

(** [callable(v)]: an object says so itself; a pyomo unit is a numeric
    value with a [__call__] method; [None], numbers, strings, tuples, lists
    and dictionaries are not callable. *)
Definition callable (v : value) : bool :=
  match v with
  | VObj _ c _ _ => c
  | VUnits _ => true
  | _ => false
  end.

(** [len(v)] *)
Definition py_len (v : value) : outcome nat :=
  match v with
  | VTuple xs | VList xs => Return (length xs)
  | VDict d => Return (size d)
  | VStr s => Return (String.length s)
  | _ => Raise TypeError
  end.

(** [c[k]]: dictionaries are keyed by strings here, sequences by position;
    [None], numbers, units and plain objects are not subscriptable. *)
Definition py_getitem (c : value) (k : subscript) : outcome value :=
  match c, k with
  | VDict d, SStr s =>
      match d !! s with
      | Some v => Return v
      | None => Raise (KeyError k)
      end
  | VDict _, SInt _ => Raise (KeyError k)
  | VTuple xs, SInt i | VList xs, SInt i =>
      match xs !! i with
      | Some v => Return v
      | None => Raise IndexError
      end
  | VStr s, SInt i =>
      match String.get i s with
      | Some ch => Return (VStr (String ch EmptyString))
      | None => Raise IndexError
      end
  | _, _ => Raise TypeError
  end.

(* ===================================================================== *)
(** ** The functions of [utility.py] *)
(* ===================================================================== *)

(** [GenericPropertyPackageError.__str__]; a block prints as its name. *)
Definition GenericPropertyPackageError_str
    (block : property_block) (prop : string) : string :=
  "Generic Property Package instance " +:+ pb_name block +:+
  " called for " +:+ prop +:+
  ", but was not provided with a method for this property. " +:+
  "Please add a method for this property in the property parameter " +:+
  "configuration.".

(** Message of the [AttributeError] raised by [get_method] for a
    configuration option that does not exist. *)
Definition invalid_option_msg (name config_arg : string) : string :=
  name +:+ " Generic Property Package called for invalid " +:+
  "configuration option " +:+ config_arg +:+ ". Please contact the " +:+
  "developer of the property package.".

(** Message of the [ConfigurationError] raised by [get_method] for a value
    that cannot be reduced to a callable. *)
Definition invalid_value_msg (name config_arg : string) : string :=
  name +:+ " Generic Property Package received invalid value " +:+
  "for argument " +:+ config_arg +:+ ". Value must be a method, a class " +:+
  "with a method named expression or a module containing one of the " +:+
  "previous.".

(** Modelled from the spec: [params.get_component], the parameter block's
    registry lookup, which is not part of this file.  It returns the
    component registered under [comp]; a missing name raises the registry's
    own not-found error, which callers here let through. *)
Definition get_component (p : parameter_block) (comp : string)
  : outcome component :=
  match params_components p !! comp with
  | Some c => Return c
  | None => Raise (ComponentLookupError comp)
  end.

(** Lines 60-63 of [get_method]: the configuration block to inspect. *)
Definition source_block (self : property_block) (comp : option string)
  : outcome (gmap string value) :=
  match comp with
  | None => Return (params_config (pb_params self))
  | Some c =>
      cobj ← get_component (pb_params self) c;
      Return (comp_config cobj)
  end.

(** Lines 79-91 of [get_method]: prefer the candidate's
    [return_expression], and accept only a callable. *)
Definition method_of (self : property_block) (config_arg : string)
    (c_arg : value) : outcome value :=
  mthd ←
    match getattr c_arg "return_expression" with
    | Return m => Return m
    | Raise (AttributeError _) => Return c_arg
    | Raise e => Raise e
    end;
  if callable mthd then Return mthd
  else
    Raise (ConfigurationError (invalid_value_msg (pb_name self) config_arg)).

Definition get_method (self : property_block) (config_arg : string)
    (comp : option string) : outcome value :=
  source_block ← source_block self comp;
  c_arg ←
    match source_block !! config_arg with
    | Some v => Return v
    | None =>
        Raise (AttributeError (invalid_option_msg (pb_name self) config_arg))
    end;
  if is_None c_arg then
    Raise (GenericPropertyPackageError self config_arg)
  else
    c_arg ←
      (if isinstance_module c_arg then getattr c_arg config_arg
       else Return c_arg);
    method_of self config_arg c_arg.

Definition get_component_object (self : property_block) (comp : string)
  : outcome component :=
  get_component (pb_params self) comp.

(** [b] of [set_param_value]: a block with a display name, the name of its
    type, its own [config], and attributes that refer to parameter objects.
    Parameter objects live in a store and are referred to by location, so
    two attributes may name the same object. *)
Record block : Type := Block {
  b_name : string;
  b_type : string;
  b_config : gmap string value;
  b_attrs : gmap string positive
}.

(** What [set_param_value] mutates: the [value] of each parameter object
    and the messages handed to [_log.debug]. *)
Record store : Type := Store {
  st_value : gmap positive value;
  st_log : list string
}.

(** Message written by [set_param_value] for data without units. *)
Definition no_units_msg (name param : string) : string :=
  name +:+ " no units provided for parameter " +:+ param +:+
  " - assuming default units".

(** [getattr(b, a)] on a block: the location of the parameter object. *)
Definition block_getattr (b : block) (a : string) : outcome positive :=
  match b_attrs b !! a with
  | Some l => Return l
  | None => Raise (AttributeError (no_attribute_msg false (b_type b) a))
  end.

(** [param_obj.value = v] *)
Definition set_value (l : positive) (v : value) (st : store) : store :=
  Store (<[l := v]> (st_value st)) (st_log st).

(** [_log.debug(msg)] *)
Definition log_debug (msg : string) (st : store) : store :=
  Store (st_value st) (st_log st ++ [msg]).

(** Lines 168-169 of [set_param_value]: [config] defaults to [b.config]. *)
Definition config_or_default (b : block) (config : option (gmap string value))
  : gmap string value :=
  match config with
  | None => b_config b
  | Some c => c
  end.

Section WithUnits.

(** [pyunits.convert_value(value, from_units=..., to_units=...)], the unit
    conversion facility; it may raise. *)
Variable convert_value : value -> value -> value -> outcome value.

Definition get_bounds_from_config (b : property_block) (state : string)
    (base_units : value) : outcome ((value * value) * value) :=
  match (state_bounds ← config_getattr (params_config (pb_params b))
                                       "state_bounds";
         py_getitem state_bounds (SStr state)) with
  | Raise (KeyError _) | Raise TypeError =>
      Return ((VNone, VNone), VNone)
  | Raise e => Raise e
  | Return var_config =>
      n ← py_len var_config;
      if Nat.eqb n 4 then
        v0 ← py_getitem var_config (SInt 0);
        u ← py_getitem var_config (SInt 3);
        lower ← convert_value v0 u base_units;
        v2 ← py_getitem var_config (SInt 2);
        u ← py_getitem var_config (SInt 3);
        upper ← convert_value v2 u base_units;
        v1 ← py_getitem var_config (SInt 1);
        u ← py_getitem var_config (SInt 3);
        default_val ← convert_value v1 u base_units;
        Return ((lower, upper), default_val)
      else
        v0 ← py_getitem var_config (SInt 0);
        v2 ← py_getitem var_config (SInt 2);
        v1 ← py_getitem var_config (SInt 1);
        Return ((v0, v2), v1)
  end.

(** Lines 171-176 of [set_param_value]: the parameter object and the raw
    data, the object looked up first. *)
Definition param_lookup (b : block) (param : string)
    (config : gmap string value) (index : option string)
  : outcome (positive * value) :=
  match index with
  | None =>
      param_obj ← block_getattr b param;
      parameter_data ← config_getattr config "parameter_data";
      p_data ← py_getitem parameter_data (SStr param);
      Return (param_obj, p_data)
  | Some i =>
      param_obj ← block_getattr b (param +:+ "_" +:+ i);
      parameter_data ← config_getattr config "parameter_data";
      entry ← py_getitem parameter_data (SStr param);
      p_data ← py_getitem entry (SStr i);
      Return (param_obj, p_data)
  end.

(** Lines 178-187 of [set_param_value]: store the raw data in the
    parameter object.  [units is None and p_data[1] is None] reads
    [p_data[1]] only when [units] is [None]. *)
Definition assign_p_data (b : block) (param : string) (units : value)
    (param_obj : positive) (p_data : value) (st : store)
  : outcome unit * store :=
  if isinstance_tuple p_data then
    match
      (both_unset ←
         (if is_None units
          then u ← py_getitem p_data (SInt 1); Return (is_None u)
          else Return false);
       if (both_unset : bool) then py_getitem p_data (SInt 0)
       else
         v ← py_getitem p_data (SInt 0);
         u ← py_getitem p_data (SInt 1);
         convert_value v u units)
    with
    | Return v => (Return tt, set_value param_obj v st)
    | Raise e => (Raise e, st)
    end
  else
    (Return tt,
     set_value param_obj p_data
       (log_debug (no_units_msg (b_name b) param) st)).

Definition set_param_value (b : block) (param : string) (units : value)
    (config : option (gmap string value)) (index : option string)
    (st : store) : outcome unit * store :=
  let config := config_or_default b config in
  match param_lookup b param config index with
  | Raise e => (Raise e, st)
  | Return (param_obj, p_data) =>
      assign_p_data b param units param_obj p_data st
  end.

End WithUnits.

(* ===================================================================== *)
(** ** Auxiliary definitions used in statements and examples *)
(* ===================================================================== *)

(** Last character of a string, used to tell error messages apart. *)
Fixpoint last_char (s : string) : option Ascii.ascii :=
  match s with
  | EmptyString => None
  | String c EmptyString => Some c
  | String _ rest => last_char rest
  end.

(** A conversion facility with a single known factor: numbers in unit
    [unit_a] become numbers in unit [unit_b] by multiplication with [f];
    equal units (or no units on both sides) leave a number unchanged;
    everything else is refused. *)
Definition factor_convert (unit_a unit_b : string) (f : Q)
    (v from_units to_units : value) : outcome value :=
  match v, from_units, to_units with
  | VNum x, VUnits a, VUnits b =>
      if String.eqb a b then Return v
      else if String.eqb a unit_a && String.eqb b unit_b
           then Return (VNum (x * f))
           else Raise (UnitsError "incompatible units")
  | VNum _, VNone, VNone => Return v
  | VNum _, _, _ => Raise (UnitsError "incompatible units")
  | _, _, _ => Raise (UnitsError "not a number")
  end.

(** A conversion facility that refuses every request. *)
Definition refusing_convert (v from_units to_units : value) : outcome value :=
  Raise (UnitsError "conversion refused").

(** Centimetres to metres. *)
Definition cm_to_m : value -> value -> value -> outcome value :=
  factor_convert "cm" "m" (1 # 100).

(** A plain function, a class wrapping an expression builder, a class whose
    [return_expression] is not callable, and modules with and without an
    attribute named after the option. *)
Definition ex_function : value :=
  VObj false true "function" {[ "__name__" := VStr "cp_mol" ]}.
Definition ex_builder : value :=
  VObj false true "function" {[ "__name__" := VStr "return_expression" ]}.
Definition ex_class : value :=
  VObj false true "type" {[ "return_expression" := ex_builder ]}.
Definition ex_bad_class : value :=
  VObj false true "type" {[ "return_expression" := VNum 5 ]}.
Definition ex_module : value :=
  VObj true false "dens_mol" {[ "dens_mol" := ex_function ]}.
Definition ex_module_re : value :=
  VObj true false "visc_d"
       (<[ "return_expression" := ex_builder ]> {[ "visc_d" := ex_function ]}).
Definition ex_empty_module : value := VObj true false "therm_cond" ∅.

Definition ex_state_bounds : value :=
  VDict (<[ "temperature" :=
              VTuple [VNum 1; VNum 5; VNum 10; VUnits "cm"] ]>
         {[ "pressure" := VTuple [VNum 1; VNum 5; VNum 10] ]}).

Definition ex_config : gmap string value :=
  <[ "cp_mol" := ex_function ]>
  (<[ "enth_mol" := ex_class ]>
  (<[ "entr_mol" := ex_bad_class ]>
  (<[ "dens_mol" := ex_module ]>
  (<[ "visc_d" := ex_module_re ]>
  (<[ "therm_cond" := ex_empty_module ]>
  (<[ "pressure_sat" := VNone ]>
  {[ "state_bounds" := ex_state_bounds ]})))))).

Definition ex_self : property_block :=
  PropertyBlock "props"
    (ParameterBlock ex_config {[ "H2O" := Component ex_config ]}).

(** A block whose [state_bounds] option is left at [None]. *)
Definition ex_unbounded : property_block :=
  PropertyBlock "props" (ParameterBlock {[ "state_bounds" := VNone ]} ∅).

(** A block with unindexed parameters [kappa], [omega], [sigma] and
    indexed parameters [kappa_1], [kappa_2], each a parameter object of its
    own, and parameter data: a pair with a unit, a pair without, and bare
    numbers. *)
Definition ex_parameter_data : value :=
  VDict (<[ "kappa" := VDict (<[ "1" := VTuple [VNum 2; VUnits "cm"] ]>
                              {[ "2" := VNum 7 ]}) ]>
         (<[ "sigma" := VTuple [VNum 3; VNone] ]>
          {[ "omega" := VNum 2 ]})).

Definition ex_block : block :=
  Block "H2O" "Component"
        {[ "parameter_data" := ex_parameter_data ]}
        (<[ "kappa" := 1%positive ]>
         (<[ "kappa_1" := 2%positive ]>
         (<[ "kappa_2" := 3%positive ]>
         (<[ "omega" := 4%positive ]>
          {[ "sigma" := 5%positive ]})))).

Definition ex_store : store := Store ∅ [].

(** Further configurations: modules whose attribute named after the option
    is a class, or is [None]; a number where a method is expected; bound
    specifications that are too short, too long, not sized, or in a unit
    the conversion facility does not know. *)
Definition ex_module_class : value :=
  VObj true false "enth_mol" {[ "enth_mol" := ex_class ]}.
Definition ex_module_none : value :=
  VObj true false "entr_mol" {[ "entr_mol" := VNone ]}.

Definition ex_state_bounds_more : value :=
  VDict (<[ "flow_mol" := VTuple [VNum 1; VNum 5] ]>
        (<[ "mole_frac" := VNone ]>
        (<[ "enth_mol" :=
              VTuple [VNum 1; VNum 5; VNum 10; VUnits "cm"; VStr "note"] ]>
        (<[ "temperature" :=
              VTuple [VNum 1; VNum 5; VStr "hot"; VUnits "cm"] ]>
         {[ "pressure" := VTuple [VNum 1; VNum 5; VNum 10; VUnits "bar"] ]})))).

Definition ex_config_more : gmap string value :=
  <[ "enth_mol" := ex_module_class ]>
  (<[ "entr_mol" := ex_module_none ]>
  (<[ "dens_mol" := VNum 5 ]>
  {[ "state_bounds" := ex_state_bounds_more ]})).

Definition ex_self_more : property_block :=
  PropertyBlock "props" (ParameterBlock ex_config_more ∅).

(** A block whose configuration has no [state_bounds] option at all. *)
Definition ex_no_option : property_block :=
  PropertyBlock "props" (ParameterBlock ∅ ∅).

(** A block whose parameter data does not match its parameter objects:
    [omega] has bare data but also an indexed object [omega_1]; [kappa_3]
    has an object but no data; [tau] has a one-element tuple and [rho] a
    three-element tuple; [zeta] has no data at all. *)
Definition ex_parameter_data_more : value :=
  VDict (<[ "omega" := VNum 2 ]>
        (<[ "kappa" := VDict {[ "1" := VTuple [VNum 2; VUnits "cm"] ]} ]>
        (<[ "tau" := VTuple [VNum 4] ]>
         {[ "rho" := VTuple [VNum 2; VUnits "cm"; VStr "fitted"] ]}))).

Definition ex_block_more : block :=
  Block "H2O" "Component"
        {[ "parameter_data" := ex_parameter_data_more ]}
        (<[ "omega" := 1%positive ]>
         (<[ "omega_1" := 2%positive ]>
         (<[ "kappa_3" := 3%positive ]>
         (<[ "tau" := 4%positive ]>
         (<[ "rho" := 5%positive ]>
         (<[ "kappa_1" := 6%positive ]>
          {[ "zeta" := 7%positive ]})))))).

(** A store in which some parameters already have values. *)
Definition ex_store_used : store :=
  Store (<[ 1%positive := VNum 9 ]> {[ 4%positive := VNum 8 ]}) ["earlier"].

(* ===================================================================== *)
(** ** Error messages are told apart by their last character *)
(* ===================================================================== *)

Lemma append_empty_r (s t : string) :
  s +:+ t = EmptyString -> t = EmptyString.
Proof. destruct s; simpl; [tauto | discriminate]. Qed.

Lemma last_char_app (s t : string) :
  t <> EmptyString -> last_char (s +:+ t) = last_char t.
Proof.
  intros Ht. induction s as [|c s IH]; simpl; [reflexivity|].
  destruct (s +:+ t) eqn:E.
  - apply append_empty_r in E. contradiction.
  - exact IH.
Qed.

(** Solves [s1 +:+ ... +:+ lit <> EmptyString] for a non-empty literal
    [lit]. *)
Ltac nonempty :=
  let E := fresh "E" in
  intros E; repeat (apply append_empty_r in E); discriminate E.

Lemma invalid_option_msg_last (name config_arg : string) :
  last_char (invalid_option_msg name config_arg) = Some "."%char.
Proof.
  unfold invalid_option_msg.
  rewrite last_char_app by nonempty.
  rewrite last_char_app by nonempty.
  rewrite last_char_app by nonempty.
  rewrite last_char_app by nonempty.
  reflexivity.
Qed.

Lemma no_attribute_msg_last (m : bool) (owner attr : string) :
  last_char (no_attribute_msg m owner attr) = Some "'"%char.
Proof.
  unfold no_attribute_msg. destruct m.
  - rewrite last_char_app by nonempty.
    rewrite last_char_app by nonempty.
    rewrite last_char_app by nonempty.
    rewrite last_char_app by nonempty.
    reflexivity.
  - rewrite last_char_app by nonempty.
    rewrite last_char_app by nonempty.
    rewrite last_char_app by nonempty.
    rewrite last_char_app by nonempty.
    reflexivity.
Qed.

Lemma no_attribute_msg_not_invalid_option
    (m : bool) (owner attr name config_arg : string) :
  no_attribute_msg m owner attr <> invalid_option_msg name config_arg.
Proof.
  intros E. apply (f_equal last_char) in E.
  rewrite no_attribute_msg_last, invalid_option_msg_last in E.
  discriminate.
Qed.

Lemma interpreter_error_not_invalid_option
    (m : bool) (owner attr name config_arg : string) :
  AttributeError (no_attribute_msg m owner attr) <>
  AttributeError (invalid_option_msg name config_arg).
Proof.
  intros E.
  apply (no_attribute_msg_not_invalid_option m owner attr name config_arg).
  congruence.
Qed.

(* ===================================================================== *)
(** ** [get_method] *)
(* ===================================================================== *)

(** [getattr] raises nothing but [AttributeError]. *)
Lemma getattr_cases (v : value) (a : string) :
  (exists x, getattr v a = Return x) \/
  (exists msg, getattr v a = Raise (AttributeError msg)).
Proof.
  destruct v; simpl; eauto.
  destruct (attrs !! a); eauto.
Qed.

(** Lines 79-91 end in a returned callable or in the [ConfigurationError]. *)
Lemma method_of_cases (self : property_block) (config_arg : string)
    (c_arg : value) :
  (exists r, method_of self config_arg c_arg = Return r /\ callable r = true)
  \/ method_of self config_arg c_arg =
       Raise (ConfigurationError
                (invalid_value_msg (pb_name self) config_arg)).
Proof.
  unfold method_of.
  destruct (getattr_cases c_arg "return_expression") as [[m ->]|[msg ->]];
    simpl.
  - destruct (callable m) eqn:E; eauto.
  - destruct (callable c_arg) eqn:E; eauto.
Qed.

(** Once the option has a value that is not [None] and not a module,
    [get_method] is lines 79-91 applied to that value. *)
Lemma get_method_plain (self : property_block) (config_arg : string)
    (comp : option string) (cfg : gmap string value) (v : value) :
  source_block self comp = Return cfg ->
  cfg !! config_arg = Some v ->
  is_None v = false ->
  isinstance_module v = false ->
  get_method self config_arg comp = method_of self config_arg v.
Proof.
  intros Hsrc Hk Hnone Hmod. unfold get_method.
  rewrite Hsrc. simpl. rewrite Hk. simpl. rewrite Hnone, Hmod.
  reflexivity.
Qed.

(** A value that [callable] accepts is an object, hence not [None]. *)
Lemma callable_not_None (v : value) : callable v = true -> is_None v = false.
Proof. destruct v; simpl; congruence. Qed.

(** A value with attributes is an object, hence not [None]. *)
Lemma getattr_not_None (v : value) (a : string) (r : value) :
  getattr v a = Return r -> is_None v = false.
Proof. destruct v; simpl; congruence. Qed.

(** C1, as stated, fails: a class is callable, yet when it exposes
    [return_expression] the resolver returns that attribute and not the
    class configured under the key. *)
Lemma get_method_callable_counterexample :
  source_block ex_self None = Return ex_config /\
  ex_config !! "enth_mol" = Some ex_class /\
  callable ex_class = true /\
  get_method ex_self "enth_mol" None = Return ex_builder /\
  get_method ex_self "enth_mol" None <> Return ex_class.
Proof. repeat split; try reflexivity. vm_compute. discriminate. Qed.

(** C1 (amended): for every configuration block exposing under key
    [config_arg] a callable value that is not a module and has no
    [return_expression] attribute, [get_method] returns that exact callable
    unchanged. *)
Theorem get_method_returns_callable (self : property_block)
    (config_arg : string) (comp : option string)
    (cfg : gmap string value) (f : value) :
  source_block self comp = Return cfg ->
  cfg !! config_arg = Some f ->
  callable f = true ->
  isinstance_module f = false ->
  (forall r, getattr f "return_expression" <> Return r) ->
  get_method self config_arg comp = Return f.
Proof.
  intros Hsrc Hk Hcall Hmod Hre.
  rewrite (get_method_plain self config_arg comp cfg f Hsrc Hk
             (callable_not_None f Hcall) Hmod).
  unfold method_of.
  destruct (getattr_cases f "return_expression") as [[r E]|[msg E]].
  - exfalso. exact (Hre r E).
  - rewrite E. simpl. rewrite Hcall. reflexivity.
Qed.

Lemma get_method_returns_callable_witness :
  get_method ex_self "cp_mol" None = Return ex_function.
Proof.
  apply (get_method_returns_callable ex_self "cp_mol" None
           ex_config ex_function);
    [reflexivity | reflexivity | reflexivity | reflexivity | ].
  intros r. vm_compute. discriminate.
Defined.

(** C2, as stated, fails twice over: a [return_expression] attribute that
    is not callable is rejected with a [ConfigurationError], and a module
    exposing [return_expression] is first replaced by its attribute named
    after the option. *)
Lemma get_method_return_expression_counterexample :
  (ex_config !! "entr_mol" = Some ex_bad_class /\
   getattr ex_bad_class "return_expression" = Return (VNum 5) /\
   get_method ex_self "entr_mol" None =
     Raise (ConfigurationError (invalid_value_msg "props" "entr_mol"))) /\
  (ex_config !! "visc_d" = Some ex_module_re /\
   getattr ex_module_re "return_expression" = Return ex_builder /\
   get_method ex_self "visc_d" None = Return ex_function /\
   ex_function <> ex_builder).
Proof. repeat split; try reflexivity. discriminate. Qed.

(** C2 (amended): for every configuration block whose value under key
    [config_arg] is an object that is not a module and exposes a callable
    attribute [return_expression], [get_method] returns that attribute, not
    the wrapping object. *)
Theorem get_method_returns_return_expression (self : property_block)
    (config_arg : string) (comp : option string)
    (cfg : gmap string value) (o r : value) :
  source_block self comp = Return cfg ->
  cfg !! config_arg = Some o ->
  isinstance_module o = false ->
  getattr o "return_expression" = Return r ->
  callable r = true ->
  get_method self config_arg comp = Return r.
Proof.
  intros Hsrc Hk Hmod Hre Hcall.
  rewrite (get_method_plain self config_arg comp cfg o Hsrc Hk
             (getattr_not_None o _ r Hre) Hmod).
  unfold method_of. rewrite Hre. simpl. rewrite Hcall. reflexivity.
Qed.

Lemma get_method_returns_return_expression_witness :
  get_method ex_self "enth_mol" (Some "H2O") = Return ex_builder.
Proof.
  apply (get_method_returns_return_expression ex_self "enth_mol"
           (Some "H2O") ex_config ex_class ex_builder); reflexivity.
Defined.

(** Every way [get_method] can end once the configuration block is known,
    by the value found under the option. *)
Lemma get_method_cases (self : property_block) (config_arg : string)
    (comp : option string) (cfg : gmap string value) :
  source_block self comp = Return cfg ->
  match cfg !! config_arg with
  | None =>
      get_method self config_arg comp =
        Raise (AttributeError (invalid_option_msg (pb_name self) config_arg))
  | Some VNone =>
      get_method self config_arg comp =
        Raise (GenericPropertyPackageError self config_arg)
  | Some (VObj true _ ident _) =>
      get_method self config_arg comp =
        Raise (AttributeError (no_attribute_msg true ident config_arg)) \/
      (exists r, get_method self config_arg comp = Return r) \/
      get_method self config_arg comp =
        Raise (ConfigurationError
                 (invalid_value_msg (pb_name self) config_arg))
  | Some _ =>
      (exists r, get_method self config_arg comp = Return r) \/
      get_method self config_arg comp =
        Raise (ConfigurationError
                 (invalid_value_msg (pb_name self) config_arg))
  end.
Proof.
  intros Hsrc.
  assert (Hfin : forall c,
            (exists r, method_of self config_arg c = Return r) \/
            method_of self config_arg c =
              Raise (ConfigurationError
                       (invalid_value_msg (pb_name self) config_arg))).
  { intros c.
    destruct (method_of_cases self config_arg c) as [(r & E & _)|E]; eauto. }
  unfold get_method. rewrite Hsrc. simpl.
  destruct (cfg !! config_arg) as [v|]; simpl; [|reflexivity].
  destruct v as [ | q | s | u | xs | xs | d | m c ident attrs];
    try reflexivity; try apply Hfin.
  destruct m; cbn [is_None isinstance_module getattr]; [|apply Hfin].
  destruct (attrs !! config_arg) as [x|]; simpl.
  - right. apply Hfin.
  - left. reflexivity.
Qed.

(** C3: once the configuration block is resolved, [get_method] fails with
    the property-method-not-provided error exactly when the value under the
    option is [None], and that error stores the owning block and the
    property and prints both; it fails with the invalid-configuration-option
    error exactly when the option is absent from the configuration block,
    and that error names the block and the option; the two errors are
    distinct. *)
Theorem get_method_unset_vs_absent (self : property_block)
    (config_arg : string) (comp : option string)
    (cfg : gmap string value) :
  source_block self comp = Return cfg ->
  ((exists blk prop, get_method self config_arg comp =
                       Raise (GenericPropertyPackageError blk prop))
   <-> cfg !! config_arg = Some VNone) /\
  (cfg !! config_arg = Some VNone ->
   get_method self config_arg comp =
     Raise (GenericPropertyPackageError self config_arg)) /\
  ((exists name arg, get_method self config_arg comp =
                       Raise (AttributeError (invalid_option_msg name arg)))
   <-> cfg !! config_arg = None) /\
  (cfg !! config_arg = None ->
   get_method self config_arg comp =
     Raise (AttributeError (invalid_option_msg (pb_name self) config_arg))) /\
  (forall name arg,
     GenericPropertyPackageError self config_arg <>
     AttributeError (invalid_option_msg name arg)) /\
  GenericPropertyPackageError_str self config_arg =
    "Generic Property Package instance " +:+ pb_name self +:+
    " called for " +:+ config_arg +:+
    ", but was not provided with a method for this property. " +:+
    "Please add a method for this property in the property parameter " +:+
    "configuration.".
Proof.
  intros Hsrc.
  pose proof (get_method_cases self config_arg comp cfg Hsrc) as H.
  destruct (cfg !! config_arg) as [v|].
  - destruct v as [ | | | | | | |m c ident attrs].
    2-7: (destruct H as [[r H]|H]; rewrite H;
          repeat split; try discriminate;
          intros (? & ? & ?); discriminate).
    + rewrite H. repeat split; try discriminate; eauto.
      intros (? & ? & ?); discriminate.
    + destruct m.
      * destruct H as [H|[[r H]|H]]; rewrite H;
          repeat split; try discriminate;
          intros (x & y & E); try discriminate.
        exfalso.
        apply (interpreter_error_not_invalid_option true ident config_arg x y).
        congruence.
      * destruct H as [[r H]|H]; rewrite H;
          repeat split; try discriminate;
          intros (? & ? & ?); discriminate.
  - rewrite H. repeat split; try discriminate; eauto.
    intros (? & ? & ?); discriminate.
Qed.

Lemma get_method_unset_vs_absent_witness :
  get_method ex_self "pressure_sat" None =
    Raise (GenericPropertyPackageError ex_self "pressure_sat") /\
  get_method ex_self "fug_phase" (Some "H2O") =
    Raise (AttributeError (invalid_option_msg "props" "fug_phase")).
Proof.
  split.
  - apply (proj1 (proj2 (get_method_unset_vs_absent ex_self "pressure_sat"
                           None ex_config eq_refl))).
    reflexivity.
  - apply (proj1 (proj2 (proj2 (proj2
             (get_method_unset_vs_absent ex_self "fug_phase"
                (Some "H2O") ex_config eq_refl))))).
    reflexivity.
Defined.

(** C10: when the value under the option is a module that does not define
    an attribute named after the option, the interpreter's own
    [AttributeError] escapes from [get_method]; it is neither the
    invalid-configuration-option error, nor the
    property-method-not-provided error, nor the malformed-value
    [ConfigurationError]. *)
Theorem get_method_module_without_attribute (self : property_block)
    (config_arg : string) (comp : option string)
    (cfg : gmap string value) (c : bool) (ident : string)
    (attrs : gmap string value) :
  source_block self comp = Return cfg ->
  cfg !! config_arg = Some (VObj true c ident attrs) ->
  attrs !! config_arg = None ->
  get_method self config_arg comp =
    Raise (AttributeError (no_attribute_msg true ident config_arg)) /\
  (forall name arg,
     AttributeError (no_attribute_msg true ident config_arg) <>
     AttributeError (invalid_option_msg name arg)) /\
  (forall blk prop,
     AttributeError (no_attribute_msg true ident config_arg) <>
     GenericPropertyPackageError blk prop) /\
  (forall msg,
     AttributeError (no_attribute_msg true ident config_arg) <>
     ConfigurationError msg).
Proof.
  intros Hsrc Hk Hattr. repeat split; try discriminate.
  - unfold get_method. rewrite Hsrc. simpl. rewrite Hk. simpl.
    rewrite Hattr. reflexivity.
  - intros name arg. apply interpreter_error_not_invalid_option.
Qed.

Lemma get_method_module_without_attribute_witness :
  get_method ex_self "therm_cond" None =
    Raise (AttributeError "module 'therm_cond' has no attribute 'therm_cond'").
Proof.
  apply (proj1 (get_method_module_without_attribute ex_self "therm_cond"
                  None ex_config false "therm_cond" ∅
                  eq_refl eq_refl eq_refl)).
Defined.

(* ===================================================================== *)
(** ** [get_bounds_from_config] *)
(* ===================================================================== *)

Section Bounds.

Variable convert_value : value -> value -> value -> outcome value.

(** With a four-element tuple under the state's key, the extractor is
    three conversions in the order lower, upper, default. *)
Lemma get_bounds_from_config_four (b : property_block) (state : string)
    (base_units : value) (d : gmap string value)
    (lower default_val upper units : value) :
  params_config (pb_params b) !! "state_bounds" = Some (VDict d) ->
  d !! state = Some (VTuple [lower; default_val; upper; units]) ->
  get_bounds_from_config convert_value b state base_units =
    (lo ← convert_value lower units base_units;
     hi ← convert_value upper units base_units;
     dv ← convert_value default_val units base_units;
     Return ((lo, hi), dv)).
Proof.
  intros Hsb Hd. unfold get_bounds_from_config, config_getattr.
  rewrite Hsb. simpl. rewrite Hd. reflexivity.
Qed.

(** C4: for every four-element bound specification
    [(lower, default, upper, unit)], the extractor returns lower, upper
    and default converted from that unit into the base unit; in
    particular, when conversion from [unit_a] into the base unit
    multiplies by [f], the specification [(1, 5, 10, unit_a)] yields the
    bounds [(1*f, 10*f)] and the default [5*f]. *)
Theorem get_bounds_from_config_converts (b : property_block)
    (state : string) (base_units : value) (d : gmap string value) :
  params_config (pb_params b) !! "state_bounds" = Some (VDict d) ->
  (forall lower default_val upper units lo dv hi,
     d !! state = Some (VTuple [lower; default_val; upper; units]) ->
     convert_value lower units base_units = Return lo ->
     convert_value default_val units base_units = Return dv ->
     convert_value upper units base_units = Return hi ->
     get_bounds_from_config convert_value b state base_units =
       Return ((lo, hi), dv)) /\
  (forall unit_a f,
     d !! state = Some (VTuple [VNum 1; VNum 5; VNum 10; unit_a]) ->
     (forall x, convert_value (VNum x) unit_a base_units
                = Return (VNum (x * f))) ->
     get_bounds_from_config convert_value b state base_units =
       Return ((VNum (1 * f), VNum (10 * f)), VNum (5 * f))).
Proof.
  intros Hsb. split.
  - intros lower default_val upper units lo dv hi Hd Hlo Hdv Hhi.
    rewrite (get_bounds_from_config_four b state base_units d
               lower default_val upper units Hsb Hd).
    rewrite Hlo, Hhi, Hdv. reflexivity.
  - intros unit_a f Hd Hf.
    rewrite (get_bounds_from_config_four b state base_units d
               (VNum 1) (VNum 5) (VNum 10) unit_a Hsb Hd).
    rewrite !Hf. reflexivity.
Qed.

(** C5: when the bound specification of the state is absent, because
    [state_bounds] is not a dictionary (and so cannot be indexed by the
    state's name) or because it is a dictionary without that key, the
    extractor returns [((None, None), None)] and raises nothing. *)
Theorem get_bounds_from_config_absent (b : property_block)
    (state : string) (base_units : value) (state_bounds : value) :
  params_config (pb_params b) !! "state_bounds" = Some state_bounds ->
  (forall d, state_bounds = VDict d -> d !! state = None) ->
  get_bounds_from_config convert_value b state base_units =
    Return ((VNone, VNone), VNone).
Proof.
  intros Hsb Habsent. unfold get_bounds_from_config, config_getattr.
  rewrite Hsb. simpl.
  destruct state_bounds; simpl; try reflexivity.
  rewrite (Habsent entries eq_refl). reflexivity.
Qed.

(** Outside the claim above: an [AttributeError] from reading
    [state_bounds] itself is not caught by the extractor. *)
Lemma get_bounds_from_config_no_option (b : property_block)
    (state : string) (base_units : value) :
  params_config (pb_params b) !! "state_bounds" = None ->
  get_bounds_from_config convert_value b state base_units =
    Raise (AttributeError
             (no_attribute_msg false "ConfigBlock" "state_bounds")).
Proof.
  intros Hsb. unfold get_bounds_from_config, config_getattr.
  rewrite Hsb. reflexivity.
Qed.

End Bounds.

Lemma get_bounds_from_config_converts_witness :
  get_bounds_from_config cm_to_m ex_self "temperature" (VUnits "m") =
    Return ((VNum (1 * (1 # 100)), VNum (10 * (1 # 100))),
            VNum (5 * (1 # 100))).
Proof.
  apply (proj2 (get_bounds_from_config_converts cm_to_m ex_self
                  "temperature" (VUnits "m") _ eq_refl)
           (VUnits "cm") (1 # 100)).
  - reflexivity.
  - intros x. reflexivity.
Defined.

Lemma get_bounds_from_config_absent_witness :
  get_bounds_from_config refusing_convert ex_self "flow_mol" (VUnits "m") =
    Return ((VNone, VNone), VNone) /\
  get_bounds_from_config refusing_convert ex_unbounded "flow_mol"
    (VUnits "m") = Return ((VNone, VNone), VNone).
Proof.
  split.
  - apply (get_bounds_from_config_absent refusing_convert ex_self
             "flow_mol" (VUnits "m") ex_state_bounds eq_refl).
    intros d E. injection E as <-. reflexivity.
  - apply (get_bounds_from_config_absent refusing_convert ex_unbounded
             "flow_mol" (VUnits "m") VNone eq_refl).
    intros d E. discriminate E.
Defined.

(* ===================================================================== *)
(** ** [set_param_value] *)
(* ===================================================================== *)

Section SetParam.

Variable convert_value : value -> value -> value -> outcome value.

(** Once the parameter object and the raw data are found, the setter is
    lines 178-187 applied to them. *)
Lemma set_param_value_found (b : block) (param : string) (units : value)
    (config : option (gmap string value)) (index : option string)
    (st : store) (param_obj : positive) (p_data : value) :
  param_lookup b param (config_or_default b config) index
    = Return (param_obj, p_data) ->
  set_param_value convert_value b param units config index st
    = assign_p_data convert_value b param units param_obj p_data st.
Proof. intros Hlook. unfold set_param_value. rewrite Hlook. reflexivity. Qed.

(** Lines 184-187 on data that is not a tuple: one note in the log, then
    the data itself as the object's value. *)
Lemma assign_p_data_bare (b : block) (param : string) (units : value)
    (param_obj : positive) (p_data : value) (st : store) :
  isinstance_tuple p_data = false ->
  assign_p_data convert_value b param units param_obj p_data st
    = (Return tt,
       Store (<[param_obj := p_data]> (st_value st))
             (st_log st ++ [no_units_msg (b_name b) param])).
Proof. intros Hbare. unfold assign_p_data. rewrite Hbare. reflexivity. Qed.

(** Lines 178-183 on a pair: the raw value when both units are [None],
    otherwise what the conversion returns; nothing is logged. *)
Lemma assign_p_data_pair (b : block) (param : string) (units : value)
    (param_obj : positive) (v u : value) (st : store) :
  assign_p_data convert_value b param units param_obj (VTuple [v; u]) st
    = match (if is_None units && is_None u then Return v
             else convert_value v u units) with
      | Return w =>
          (Return tt, Store (<[param_obj := w]> (st_value st)) (st_log st))
      | Raise e => (Raise e, st)
      end.
Proof.
  unfold assign_p_data. simpl.
  destruct (is_None units); simpl; [|reflexivity].
  destruct (is_None u); reflexivity.
Qed.

(** C6: when the raw parameter data is a [(value, unit)] pair, the setter
    assigns the raw value unchanged if both the target unit and the
    supplied unit are [None]: afterwards the parameter object holds that
    value, and nothing else in the store or the log has changed.  Otherwise
    (also when only one of the two is [None]) the parameter object holds
    what converting the value from the supplied unit to the target unit
    returns; if the conversion raises, the error is raised and the store is
    as before. *)
Theorem set_param_value_pair (b : block) (param : string) (units : value)
    (config : option (gmap string value)) (index : option string)
    (st : store) (param_obj : positive) (v u : value) :
  param_lookup b param (config_or_default b config) index
    = Return (param_obj, VTuple [v; u]) ->
  (units = VNone -> u = VNone ->
   set_param_value convert_value b param units config index st
     = (Return tt,
        Store (<[param_obj := v]> (st_value st)) (st_log st))) /\
  (~ (units = VNone /\ u = VNone) ->
   (forall w,
      convert_value v u units = Return w ->
      set_param_value convert_value b param units config index st
        = (Return tt,
           Store (<[param_obj := w]> (st_value st)) (st_log st))) /\
   (forall e,
      convert_value v u units = Raise e ->
      set_param_value convert_value b param units config index st
        = (Raise e, st))).
Proof.
  intros Hlook.
  rewrite (set_param_value_found b param units config index st
             param_obj (VTuple [v; u]) Hlook).
  rewrite assign_p_data_pair. split.
  - intros -> ->. reflexivity.
  - intros Hset.
    assert (E : is_None units && is_None u = false).
    { destruct units; simpl; try reflexivity.
      destruct u; simpl; try reflexivity.
      exfalso. apply Hset. split; reflexivity. }
    rewrite E. split.
    + intros w ->. reflexivity.
    + intros e ->. reflexivity.
Qed.

(** C7: when the raw parameter data is a bare value (not a tuple), the
    setter assigns it exactly as it is, whatever the target unit, and
    hands [_log.debug] the note that default units are assumed; no
    conversion takes part: the outcome is the same with a conversion
    facility that refuses every request. *)
Theorem set_param_value_bare (b : block) (param : string) (units : value)
    (config : option (gmap string value)) (index : option string)
    (st : store) (param_obj : positive) (p_data : value) :
  param_lookup b param (config_or_default b config) index
    = Return (param_obj, p_data) ->
  isinstance_tuple p_data = false ->
  set_param_value convert_value b param units config index st
    = (Return tt,
       Store (<[param_obj := p_data]> (st_value st))
             (st_log st ++ [no_units_msg (b_name b) param])) /\
  set_param_value convert_value b param units config index st
    = set_param_value refusing_convert b param units config index st.
Proof.
  intros Hlook Hbare. unfold set_param_value. rewrite Hlook.
  unfold assign_p_data. rewrite Hbare. split; reflexivity.
Qed.

(** [assign_p_data] writes to its parameter object only. *)
Lemma assign_p_data_frame (b : block) (param : string) (units : value)
    (param_obj : positive) (p_data : value) (st : store) (l : positive) :
  l <> param_obj ->
  st_value (snd (assign_p_data convert_value b param units
                   param_obj p_data st)) !! l
    = st_value st !! l.
Proof.
  intros Hne. unfold assign_p_data.
  destruct (isinstance_tuple p_data).
  - match goal with
    | |- context [match ?c with Return _ => _ | Raise _ => _ end] =>
        destruct c
    end; simpl; [|reflexivity].
    apply lookup_insert_ne. congruence.
  - simpl. apply lookup_insert_ne. congruence.
Qed.

(** C8: an indexed call with parameter name [param] and index [i] mutates
    the parameter object found under the attribute [param + "_" + i] of
    the block, and only that object, with the raw data read from
    [parameter_data[param][i]]: bare data becomes the object's value as it
    is, a [(value, unit)] pair becomes the raw or the converted value;
    without that attribute the call raises and mutates nothing; and
    ["kappa"] with index ["1"] gives the attribute name ["kappa_1"]. *)
Theorem set_param_value_indexed (b : block) (param : string)
    (units : value) (config : option (gmap string value)) (i : string)
    (st : store) :
  (forall param_obj parameter_data entry p_data,
     b_attrs b !! (param +:+ "_" +:+ i) = Some param_obj ->
     config_or_default b config !! "parameter_data"
       = Some (VDict parameter_data) ->
     parameter_data !! param = Some (VDict entry) ->
     entry !! i = Some p_data ->
     (isinstance_tuple p_data = false ->
      set_param_value convert_value b param units config (Some i) st
        = (Return tt,
           Store (<[param_obj := p_data]> (st_value st))
                 (st_log st ++ [no_units_msg (b_name b) param]))) /\
     (forall v u,
        p_data = VTuple [v; u] ->
        set_param_value convert_value b param units config (Some i) st
          = match (if is_None units && is_None u then Return v
                   else convert_value v u units) with
            | Return w =>
                (Return tt,
                 Store (<[param_obj := w]> (st_value st)) (st_log st))
            | Raise e => (Raise e, st)
            end) /\
     forall l, l <> param_obj ->
       st_value (snd (set_param_value convert_value b param units
                        config (Some i) st)) !! l
         = st_value st !! l) /\
  (b_attrs b !! (param +:+ "_" +:+ i) = None ->
   set_param_value convert_value b param units config (Some i) st
     = (Raise (AttributeError
                 (no_attribute_msg false (b_type b)
                    (param +:+ "_" +:+ i))), st)) /\
  "kappa" +:+ "_" +:+ "1" = "kappa_1".
Proof.
  split; [|split; [|reflexivity]].
  - intros param_obj parameter_data entry p_data Hobj Hpd Hentry Hi.
    assert (Hlook : param_lookup b param (config_or_default b config)
                      (Some i) = Return (param_obj, p_data)).
    { unfold param_lookup, block_getattr, config_getattr.
      rewrite Hobj. simpl. rewrite Hpd. simpl. rewrite Hentry. simpl.
      rewrite Hi. reflexivity. }
    rewrite (set_param_value_found b param units config (Some i) st
               param_obj p_data Hlook).
    split; [|split].
    + apply assign_p_data_bare.
    + intros v u ->. apply assign_p_data_pair.
    + intros l Hne. apply assign_p_data_frame. exact Hne.
  - intros Hobj.
    unfold set_param_value, param_lookup, block_getattr.
    rewrite Hobj. reflexivity.
Qed.

(** C9: calling the setter a second time with the same arguments ends the
    same way as the first call and leaves every stored parameter value as
    the first call left it: a conversion is not applied on top of the
    earlier one. *)
Theorem set_param_value_idempotent (b : block) (param : string)
    (units : value) (config : option (gmap string value))
    (index : option string) (st : store) :
  let once := set_param_value convert_value b param units config index st in
  let twice :=
    set_param_value convert_value b param units config index (snd once) in
  fst twice = fst once /\ st_value (snd twice) = st_value (snd once).
Proof.
  unfold set_param_value.
  destruct (param_lookup b param (config_or_default b config) index)
    as [[param_obj p_data]|e]; simpl; [|split; reflexivity].
  unfold assign_p_data.
  destruct (isinstance_tuple p_data).
  - match goal with
    | |- context [match ?c with Return _ => _ | Raise _ => _ end] =>
        destruct c
    end; simpl; split; try reflexivity.
    apply insert_insert_eq.
  - simpl. split; [reflexivity|]. apply insert_insert_eq.
Qed.

End SetParam.

Lemma set_param_value_pair_witness :
  set_param_value cm_to_m ex_block "sigma" VNone None None ex_store
    = (Return tt, Store {[ 5%positive := VNum 3 ]} []) /\
  set_param_value cm_to_m ex_block "kappa" (VUnits "m") None (Some "1")
    ex_store
    = (Return tt, Store {[ 2%positive := VNum (2 * (1 # 100)) ]} []) /\
  set_param_value cm_to_m ex_block "kappa" VNone None (Some "1") ex_store
    = (Raise (UnitsError "incompatible units"), ex_store).
Proof.
  split; [|split].
  - apply (proj1 (set_param_value_pair cm_to_m ex_block "sigma" VNone
                    None None ex_store 5%positive (VNum 3) VNone eq_refl));
      reflexivity.
  - destruct (proj2 (set_param_value_pair cm_to_m ex_block "kappa"
                       (VUnits "m") None (Some "1") ex_store 2%positive
                       (VNum 2) (VUnits "cm") eq_refl))
      as [Hreturns _].
    + intros [E _]. discriminate E.
    + apply Hreturns. reflexivity.
  - destruct (proj2 (set_param_value_pair cm_to_m ex_block "kappa"
                       VNone None (Some "1") ex_store 2%positive
                       (VNum 2) (VUnits "cm") eq_refl))
      as [_ Hraises].
    + intros [_ E]. discriminate E.
    + apply Hraises. reflexivity.
Defined.

Lemma set_param_value_bare_witness :
  set_param_value cm_to_m ex_block "omega" (VUnits "m") None None ex_store
    = (Return tt,
       Store {[ 4%positive := VNum 2 ]}
             ["H2O no units provided for parameter omega - " +:+
              "assuming default units"]).
Proof.
  apply (proj1 (set_param_value_bare cm_to_m ex_block "omega" (VUnits "m")
                  None None ex_store 4%positive (VNum 2)
                  eq_refl eq_refl)).
Defined.

Lemma set_param_value_indexed_witness :
  set_param_value cm_to_m ex_block "kappa" (VUnits "m") None (Some "1")
    ex_store
    = (Return tt, Store {[ 2%positive := VNum (2 * (1 # 100)) ]} []) /\
  set_param_value cm_to_m ex_block "kappa" (VUnits "m") None (Some "2")
    ex_store
    = (Return tt,
       Store {[ 3%positive := VNum 7 ]}
             ["H2O no units provided for parameter kappa - " +:+
              "assuming default units"]).
Proof.
  split.
  - apply (proj1 (proj2 (proj1 (set_param_value_indexed cm_to_m ex_block
                                  "kappa" (VUnits "m") None "1" ex_store)
                           2%positive _ _ (VTuple [VNum 2; VUnits "cm"])
                           eq_refl eq_refl eq_refl eq_refl))
             (VNum 2) (VUnits "cm") eq_refl).
  - apply (proj1 (proj1 (set_param_value_indexed cm_to_m ex_block
                           "kappa" (VUnits "m") None "2" ex_store)
                    3%positive _ _ (VNum 7)
                    eq_refl eq_refl eq_refl eq_refl)).
    reflexivity.
Defined.

(** The indexed call of the example writes [kappa_1] and leaves [kappa]
    and [kappa_2] without a value. *)
Example set_param_value_kappa_1 :
  let st := snd (set_param_value cm_to_m ex_block "kappa" (VUnits "m")
                   None (Some "1") ex_store) in
  st_value st !! 2%positive = Some (VNum (2 # 100)) /\
  st_value st !! 1%positive = None /\
  st_value st !! 3%positive = None.
Proof. repeat split; reflexivity. Qed.

(** Two identical calls on the example store two hundredths, not two
    ten-thousandths. *)
Example set_param_value_twice :
  let once := set_param_value cm_to_m ex_block "kappa" (VUnits "m")
                None (Some "1") ex_store in
  let twice := set_param_value cm_to_m ex_block "kappa" (VUnits "m")
                 None (Some "1") (snd once) in
  st_value (snd twice) !! 2%positive = Some (VNum (2 # 100)).
Proof. reflexivity. Qed.

(* ===================================================================== *)
(** ** [get_method]: modules, rejected values and the errors it can raise *)
(* ===================================================================== *)

(** For a module that defines an attribute named after the option,
    [get_method] is lines 79-91 applied to that attribute. *)
Lemma get_method_module (self : property_block) (config_arg : string)
    (comp : option string) (cfg : gmap string value) (c : bool)
    (ident : string) (attrs : gmap string value) (x : value) :
  source_block self comp = Return cfg ->
  cfg !! config_arg = Some (VObj true c ident attrs) ->
  attrs !! config_arg = Some x ->
  get_method self config_arg comp = method_of self config_arg x.
Proof.
  intros Hsrc Hk Hx. unfold get_method.
  rewrite Hsrc. simpl. rewrite Hk. simpl. rewrite Hx. reflexivity.
Qed.

(** X1: when the value under the option is a module defining an attribute
    named after the option, the resolver works on that attribute and never
    returns the module: it returns the attribute's callable
    [return_expression] if there is one, and the attribute itself if it is
    callable and has no [return_expression]. *)
Theorem get_method_module_attribute (self : property_block)
    (config_arg : string) (comp : option string)
    (cfg : gmap string value) (c : bool) (ident : string)
    (attrs : gmap string value) (x : value) :
  source_block self comp = Return cfg ->
  cfg !! config_arg = Some (VObj true c ident attrs) ->
  attrs !! config_arg = Some x ->
  (forall r, getattr x "return_expression" = Return r ->
             callable r = true ->
             get_method self config_arg comp = Return r) /\
  ((forall r, getattr x "return_expression" <> Return r) ->
   callable x = true ->
   get_method self config_arg comp = Return x).
Proof.
  intros Hsrc Hk Hx.
  rewrite (get_method_module self config_arg comp cfg c ident attrs x
             Hsrc Hk Hx).
  unfold method_of. split.
  - intros r Hre Hcall. rewrite Hre. simpl. rewrite Hcall. reflexivity.
  - intros Hre Hcall.
    destruct (getattr_cases x "return_expression") as [[r E]|[msg E]].
    + exfalso. exact (Hre r E).
    + rewrite E. simpl. rewrite Hcall. reflexivity.
Qed.

Lemma get_method_module_attribute_witness :
  get_method ex_self_more "enth_mol" None = Return ex_builder /\
  get_method ex_self "dens_mol" None = Return ex_function.
Proof.
  split.
  - apply (proj1 (get_method_module_attribute ex_self_more "enth_mol" None
                    ex_config_more false "enth_mol" _ ex_class
                    eq_refl eq_refl eq_refl) ex_builder);
      reflexivity.
  - apply (proj2 (get_method_module_attribute ex_self "dens_mol" None
                    ex_config false "dens_mol" _ ex_function
                    eq_refl eq_refl eq_refl)); [|reflexivity].
    intros r. vm_compute. discriminate.
Defined.

(** X2: whatever [get_method] returns is callable. *)
Theorem get_method_returns_only_callables (self : property_block)
    (config_arg : string) (comp : option string) (m : value) :
  get_method self config_arg comp = Return m -> callable m = true.
Proof.
  unfold get_method.
  destruct (source_block self comp) as [cfg|e]; simpl; [|discriminate].
  destruct (cfg !! config_arg) as [v|]; simpl; [|discriminate].
  destruct (is_None v); [discriminate|].
  assert (Hfin : forall c, method_of self config_arg c = Return m ->
                           callable m = true).
  { intros c E.
    destruct (method_of_cases self config_arg c) as [(r & E' & Hr)|E'];
      rewrite E' in E; [|discriminate].
    injection E as <-. exact Hr. }
  destruct (isinstance_module v); simpl; [|apply Hfin].
  destruct (getattr v config_arg) as [x|e]; simpl; [apply Hfin|discriminate].
Qed.

Lemma get_method_returns_only_callables_witness :
  callable ex_builder = true.
Proof.
  apply (get_method_returns_only_callables ex_self "enth_mol"
           (Some "H2O") ex_builder).
  reflexivity.
Defined.

(** X3: a value that is not [None], not a module, not callable and without
    a [return_expression] attribute (a number, a string, a tuple, a
    dictionary, a plain instance) is rejected with the [ConfigurationError]
    that names the block and the option. *)
Theorem get_method_rejects_non_callable (self : property_block)
    (config_arg : string) (comp : option string)
    (cfg : gmap string value) (v : value) :
  source_block self comp = Return cfg ->
  cfg !! config_arg = Some v ->
  is_None v = false ->
  isinstance_module v = false ->
  (forall r, getattr v "return_expression" <> Return r) ->
  callable v = false ->
  get_method self config_arg comp =
    Raise (ConfigurationError (invalid_value_msg (pb_name self) config_arg)).
Proof.
  intros Hsrc Hk Hnone Hmod Hre Hcall.
  rewrite (get_method_plain self config_arg comp cfg v Hsrc Hk Hnone Hmod).
  unfold method_of.
  destruct (getattr_cases v "return_expression") as [[r E]|[msg E]].
  - exfalso. exact (Hre r E).
  - rewrite E. simpl. rewrite Hcall. reflexivity.
Qed.

Lemma get_method_rejects_non_callable_witness :
  get_method ex_self_more "dens_mol" None =
    Raise (ConfigurationError (invalid_value_msg "props" "dens_mol")).
Proof.
  apply (get_method_rejects_non_callable ex_self_more "dens_mol" None
           ex_config_more (VNum 5));
    [reflexivity | reflexivity | reflexivity | reflexivity | | reflexivity].
  intros r. vm_compute. discriminate.
Defined.

(** X4: the test for [None] comes before the module is opened: a module
    whose attribute named after the option is [None] does not give the
    property-method-not-provided error but the [ConfigurationError]. *)
Theorem get_method_module_attribute_None (self : property_block)
    (config_arg : string) (comp : option string)
    (cfg : gmap string value) (c : bool) (ident : string)
    (attrs : gmap string value) :
  source_block self comp = Return cfg ->
  cfg !! config_arg = Some (VObj true c ident attrs) ->
  attrs !! config_arg = Some VNone ->
  get_method self config_arg comp =
    Raise (ConfigurationError (invalid_value_msg (pb_name self) config_arg)) /\
  forall blk prop,
    get_method self config_arg comp <>
    Raise (GenericPropertyPackageError blk prop).
Proof.
  intros Hsrc Hk Hx.
  rewrite (get_method_module self config_arg comp cfg c ident attrs VNone
             Hsrc Hk Hx).
  split; [reflexivity|]. intros blk prop. discriminate.
Qed.

Lemma get_method_module_attribute_None_witness :
  get_method ex_self_more "entr_mol" None =
    Raise (ConfigurationError (invalid_value_msg "props" "entr_mol")).
Proof.
  apply (proj1 (get_method_module_attribute_None ex_self_more "entr_mol"
                  None ex_config_more false "entr_mol" _
                  eq_refl eq_refl eq_refl)).
Defined.

(** X5: once the configuration block is resolved, [get_method] raises
    nothing but its three own errors, each naming this block and this
    option, and the interpreter's [AttributeError] for a module; the latter
    only when the value under the option is a module without an attribute
    named after the option. *)
Theorem get_method_raises_only (self : property_block)
    (config_arg : string) (comp : option string)
    (cfg : gmap string value) (e : exn) :
  source_block self comp = Return cfg ->
  get_method self config_arg comp = Raise e ->
  e = AttributeError (invalid_option_msg (pb_name self) config_arg) \/
  e = GenericPropertyPackageError self config_arg \/
  e = ConfigurationError (invalid_value_msg (pb_name self) config_arg) \/
  (exists c ident attrs,
     cfg !! config_arg = Some (VObj true c ident attrs) /\
     attrs !! config_arg = None /\
     e = AttributeError (no_attribute_msg true ident config_arg)).
Proof.
  intros Hsrc He.
  pose proof (get_method_cases self config_arg comp cfg Hsrc) as H.
  destruct (cfg !! config_arg) as [v|] eqn:Hk.
  - destruct v as [ | | | | | | |m c ident attrs].
    2-7: (destruct H as [[r H]|H]; rewrite H in He;
          [discriminate | injection He as <-; auto]).
    + rewrite H in He. injection He as <-. auto.
    + destruct m.
      * destruct (attrs !! config_arg) as [x|] eqn:Hx.
        -- rewrite (get_method_module self config_arg comp cfg c ident attrs
                      x Hsrc Hk Hx) in He.
           destruct (method_of_cases self config_arg x) as [(r & E & _)|E];
             rewrite E in He; [discriminate|].
           injection He as <-. auto.
        -- unfold get_method in He. rewrite Hsrc in He. simpl in He.
           rewrite Hk in He. simpl in He. rewrite Hx in He. simpl in He.
           right. right. right. exists c, ident, attrs.
           split; [reflexivity|]. split; [exact Hx|].
           unfold no_attribute_msg. congruence.
      * destruct H as [[r H]|H]; rewrite H in He;
          [discriminate | injection He as <-; auto].
  - rewrite H in He. injection He as <-. auto.
Qed.

Lemma get_method_raises_only_witness :
  let e := ConfigurationError (invalid_value_msg "props" "dens_mol") in
  e = AttributeError (invalid_option_msg "props" "dens_mol") \/
  e = GenericPropertyPackageError ex_self_more "dens_mol" \/
  e = ConfigurationError (invalid_value_msg "props" "dens_mol") \/
  (exists c ident attrs,
     ex_config_more !! "dens_mol" = Some (VObj true c ident attrs) /\
     attrs !! "dens_mol" = None /\
     e = AttributeError (no_attribute_msg true ident "dens_mol")).
Proof.
  apply (get_method_raises_only ex_self_more "dens_mol" None
           ex_config_more _ eq_refl).
  reflexivity.
Defined.

(** X6: when a component name is given and [get_component_object] fails
    for it, [get_method] fails with the same error for every option, and
    the parameter block's own configuration is not consulted. *)
Theorem get_method_unknown_component (self : property_block)
    (config_arg comp : string) (e : exn) :
  get_component_object self comp = Raise e ->
  get_method self config_arg (Some comp) = Raise e.
Proof.
  unfold get_component_object, get_method, source_block.
  intros ->. reflexivity.
Qed.

Lemma get_method_unknown_component_witness :
  get_method ex_self "cp_mol" (Some "CO2")
    = Raise (ComponentLookupError "CO2") /\
  get_method ex_self "cp_mol" None = Return ex_function.
Proof.
  split; [|reflexivity].
  apply (get_method_unknown_component ex_self "cp_mol" "CO2").
  reflexivity.
Defined.

(* ===================================================================== *)
(** ** [get_bounds_from_config]: other shapes of the specification *)
(* ===================================================================== *)

Section BoundsShapes.

Variable convert_value : value -> value -> value -> outcome value.

(** X7: a specification tuple of three elements, or of five or more, is
    returned as [((first, third), second)] without any conversion, whatever
    the base unit and whatever the conversion facility would do; elements
    after the third are dropped. *)
Theorem get_bounds_from_config_no_units (b : property_block)
    (state : string) (base_units : value) (d : gmap string value)
    (lower default_val upper : value) (rest : list value) :
  params_config (pb_params b) !! "state_bounds" = Some (VDict d) ->
  d !! state = Some (VTuple (lower :: default_val :: upper :: rest)) ->
  length rest <> 1 ->
  get_bounds_from_config convert_value b state base_units =
    Return ((lower, upper), default_val).
Proof.
  intros Hsb Hd Hlen. unfold get_bounds_from_config, config_getattr.
  rewrite Hsb. simpl. rewrite Hd. simpl.
  destruct rest as [|x [|y rest]]; simpl in *;
    [reflexivity | congruence | reflexivity].
Qed.

(** X8: a specification tuple with fewer than three elements makes the
    extractor raise [IndexError]; it is not treated as missing bounds. *)
Theorem get_bounds_from_config_short (b : property_block)
    (state : string) (base_units : value) (d : gmap string value)
    (xs : list value) :
  params_config (pb_params b) !! "state_bounds" = Some (VDict d) ->
  d !! state = Some (VTuple xs) ->
  length xs < 3 ->
  get_bounds_from_config convert_value b state base_units = Raise IndexError.
Proof.
  intros Hsb Hd Hlen. unfold get_bounds_from_config, config_getattr.
  rewrite Hsb. simpl. rewrite Hd. simpl.
  destruct xs as [|x0 [|x1 [|x2 xs]]]; simpl in *; try reflexivity. lia.
Qed.

(** X9: only a failing lookup counts as missing bounds.  When the entry
    for the state exists but is [None], a number or a unit, the [TypeError]
    of [len] is raised, although the same [TypeError] from the lookup is
    swallowed. *)
Theorem get_bounds_from_config_unsized (b : property_block)
    (state : string) (base_units : value) (d : gmap string value)
    (v : value) :
  params_config (pb_params b) !! "state_bounds" = Some (VDict d) ->
  d !! state = Some v ->
  v = VNone \/ (exists q, v = VNum q) \/ (exists u, v = VUnits u) ->
  get_bounds_from_config convert_value b state base_units = Raise TypeError.
Proof.
  intros Hsb Hd Hv. unfold get_bounds_from_config, config_getattr.
  rewrite Hsb. simpl. rewrite Hd. simpl.
  destruct Hv as [->|[[q ->]|[u ->]]]; reflexivity.
Qed.

(** X10: with a four-element specification, an error of the conversion
    facility is raised by the extractor unchanged; the conversions are
    tried in the order lower, upper, default, and the first error wins. *)
Theorem get_bounds_from_config_conversion_error (b : property_block)
    (state : string) (base_units : value) (d : gmap string value)
    (lower default_val upper units : value) (e : exn) :
  params_config (pb_params b) !! "state_bounds" = Some (VDict d) ->
  d !! state = Some (VTuple [lower; default_val; upper; units]) ->
  (convert_value lower units base_units = Raise e ->
   get_bounds_from_config convert_value b state base_units = Raise e) /\
  (forall lo,
     convert_value lower units base_units = Return lo ->
     convert_value upper units base_units = Raise e ->
     get_bounds_from_config convert_value b state base_units = Raise e) /\
  (forall lo hi,
     convert_value lower units base_units = Return lo ->
     convert_value upper units base_units = Return hi ->
     convert_value default_val units base_units = Raise e ->
     get_bounds_from_config convert_value b state base_units = Raise e).
Proof.
  intros Hsb Hd.
  rewrite (get_bounds_from_config_four convert_value b state base_units d
             lower default_val upper units Hsb Hd).
  repeat split.
  - intros ->. reflexivity.
  - intros lo -> ->. reflexivity.
  - intros lo hi -> -> ->. reflexivity.
Qed.

End BoundsShapes.

Lemma get_bounds_from_config_no_units_witness :
  get_bounds_from_config refusing_convert ex_self "pressure" (VUnits "m")
    = Return ((VNum 1, VNum 10), VNum 5) /\
  get_bounds_from_config refusing_convert ex_self_more "enth_mol"
    (VUnits "m") = Return ((VNum 1, VNum 10), VNum 5).
Proof.
  split.
  - apply (get_bounds_from_config_no_units refusing_convert ex_self
             "pressure" (VUnits "m") _ (VNum 1) (VNum 5) (VNum 10) []
             eq_refl eq_refl).
    simpl. lia.
  - apply (get_bounds_from_config_no_units refusing_convert ex_self_more
             "enth_mol" (VUnits "m") _ (VNum 1) (VNum 5) (VNum 10)
             [VUnits "cm"; VStr "note"] eq_refl eq_refl).
    simpl. lia.
Defined.

Lemma get_bounds_from_config_short_witness :
  get_bounds_from_config cm_to_m ex_self_more "flow_mol" (VUnits "m")
    = Raise IndexError.
Proof.
  apply (get_bounds_from_config_short cm_to_m ex_self_more "flow_mol"
           (VUnits "m") _ [VNum 1; VNum 5] eq_refl eq_refl).
  simpl. lia.
Defined.

Lemma get_bounds_from_config_unsized_witness :
  get_bounds_from_config cm_to_m ex_self_more "mole_frac" (VUnits "m")
    = Raise TypeError /\
  get_bounds_from_config cm_to_m ex_unbounded "mole_frac" (VUnits "m")
    = Return ((VNone, VNone), VNone).
Proof.
  split; [|reflexivity].
  apply (get_bounds_from_config_unsized cm_to_m ex_self_more "mole_frac"
           (VUnits "m") _ VNone eq_refl eq_refl).
  left. reflexivity.
Defined.

Lemma get_bounds_from_config_conversion_error_witness :
  get_bounds_from_config cm_to_m ex_self_more "pressure" (VUnits "m")
    = Raise (UnitsError "incompatible units") /\
  get_bounds_from_config cm_to_m ex_self_more "temperature" (VUnits "m")
    = Raise (UnitsError "not a number").
Proof.
  split.
  - apply (proj1 (get_bounds_from_config_conversion_error cm_to_m
                    ex_self_more "pressure" (VUnits "m") _
                    (VNum 1) (VNum 5) (VNum 10) (VUnits "bar") _
                    eq_refl eq_refl)).
    reflexivity.
  - apply (proj1 (proj2 (get_bounds_from_config_conversion_error cm_to_m
                    ex_self_more "temperature" (VUnits "m") _
                    (VNum 1) (VNum 5) (VStr "hot") (VUnits "cm") _
                    eq_refl eq_refl)) (VNum (1 * (1 # 100)))).
    + reflexivity.
    + reflexivity.
Defined.

(** X11: an [AttributeError] from reading the [state_bounds] option itself
    is not among the errors the extractor swallows: it is raised, and the
    missing-bounds result is not returned. *)
Theorem get_bounds_from_config_uncaught_attribute_error
    (convert_value : value -> value -> value -> outcome value)
    (b : property_block) (state : string) (base_units : value) :
  params_config (pb_params b) !! "state_bounds" = None ->
  exists msg,
    get_bounds_from_config convert_value b state base_units =
      Raise (AttributeError msg).
Proof.
  intros Hsb. unfold get_bounds_from_config, config_getattr.
  rewrite Hsb. simpl. eauto.
Qed.

Lemma get_bounds_from_config_uncaught_attribute_error_witness :
  exists msg,
    get_bounds_from_config cm_to_m ex_no_option "temperature" (VUnits "m")
      = Raise (AttributeError msg).
Proof.
  apply (get_bounds_from_config_uncaught_attribute_error cm_to_m
           ex_no_option "temperature" (VUnits "m")).
  reflexivity.
Defined.

(* ===================================================================== *)
(** ** [set_param_value]: failures, data shapes and sequences of calls *)
(* ===================================================================== *)

Section SetParamMore.

Variable convert_value : value -> value -> value -> outcome value.

(** The object [param_lookup] returns is the one the block has under the
    parameter's attribute name. *)
Lemma param_lookup_target (b : block) (param : string)
    (config : gmap string value) (index : option string)
    (param_obj : positive) (p_data : value) :
  param_lookup b param config index = Return (param_obj, p_data) ->
  block_getattr b (match index with
                   | None => param
                   | Some i => param +:+ "_" +:+ i
                   end) = Return param_obj.
Proof.
  unfold param_lookup. destruct index as [i|].
  - destruct (block_getattr b (param +:+ "_" +:+ i)) as [l|e]; simpl;
      [|discriminate].
    destruct (config_getattr config "parameter_data") as [pd|e]; simpl;
      [|discriminate].
    destruct (py_getitem pd (SStr param)) as [entry|e]; simpl;
      [|discriminate].
    destruct (py_getitem entry (SStr i)) as [d|e]; simpl; [|discriminate].
    congruence.
  - destruct (block_getattr b param) as [l|e]; simpl; [|discriminate].
    destruct (config_getattr config "parameter_data") as [pd|e]; simpl;
      [|discriminate].
    destruct (py_getitem pd (SStr param)) as [d|e]; simpl; [|discriminate].
    congruence.
Qed.

(** Lines 178-187 either raise and leave the store alone, or write one
    value, chosen without looking at the store, and append to the log. *)
Lemma assign_p_data_shape (b : block) (param : string) (units : value)
    (param_obj : positive) (p_data : value) :
  (exists e, forall st,
     assign_p_data convert_value b param units param_obj p_data st
       = (Raise e, st)) \/
  (exists v msgs, forall st,
     assign_p_data convert_value b param units param_obj p_data st
       = (Return tt,
          Store (<[param_obj := v]> (st_value st)) (st_log st ++ msgs))).
Proof.
  unfold assign_p_data. destruct (isinstance_tuple p_data).
  - match goal with
    | |- context [match ?c with Return _ => _ | Raise _ => _ end] =>
        destruct c as [v|e]
    end.
    + right. exists v, []. intros st. unfold set_value.
      rewrite app_nil_r. reflexivity.
    + left. exists e. reflexivity.
  - right. exists p_data, [no_units_msg (b_name b) param].
    intros st. reflexivity.
Qed.

Lemma set_param_value_shape (b : block) (param : string) (units : value)
    (config : option (gmap string value)) (index : option string) :
  (exists e, forall st,
     set_param_value convert_value b param units config index st
       = (Raise e, st)) \/
  (exists param_obj v msgs,
     block_getattr b (match index with
                      | None => param
                      | Some i => param +:+ "_" +:+ i
                      end) = Return param_obj /\
     forall st,
       set_param_value convert_value b param units config index st
         = (Return tt,
            Store (<[param_obj := v]> (st_value st)) (st_log st ++ msgs))).
Proof.
  unfold set_param_value.
  destruct (param_lookup b param (config_or_default b config) index)
    as [[param_obj p_data]|e] eqn:E.
  - destruct (assign_p_data_shape b param units param_obj p_data)
      as [[e H]|(v & msgs & H)].
    + left. exists e. exact H.
    + right. exists param_obj, v, msgs. split; [|exact H].
      exact (param_lookup_target b param _ index param_obj p_data E).
  - left. exists e. reflexivity.
Qed.

(** X12: a call of the setter is all or nothing.  Either it raises and
    leaves every stored value and the log as they were, or it returns and
    the store differs from the old one in exactly one write, to the object
    under the parameter's attribute name. *)
Theorem set_param_value_all_or_nothing (b : block) (param : string)
    (units : value) (config : option (gmap string value))
    (index : option string) (st : store) :
  (exists e,
     set_param_value convert_value b param units config index st
       = (Raise e, st)) \/
  (exists param_obj v,
     b_attrs b !! (match index with
                   | None => param
                   | Some i => param +:+ "_" +:+ i
                   end) = Some param_obj /\
     fst (set_param_value convert_value b param units config index st)
       = Return tt /\
     st_value (snd (set_param_value convert_value b param units config
                      index st))
       = <[param_obj := v]> (st_value st)).
Proof.
  destruct (set_param_value_shape b param units config index)
    as [[e H]|(l & v & msgs & Hl & H)].
  - left. exists e. apply H.
  - right. exists l, v. rewrite H. simpl. repeat split.
    unfold block_getattr in Hl.
    destruct (b_attrs b !! _); [congruence|discriminate].
Qed.

(** Lines 178-187 on data that is not a tuple, and on a pair. *)
Lemma assign_p_data_values (b : block) (param : string) (units : value)
    (param_obj : positive) (p_data : value) (st : store) :
  (isinstance_tuple p_data = false ->
   assign_p_data convert_value b param units param_obj p_data st
     = (Return tt,
        Store (<[param_obj := p_data]> (st_value st))
              (st_log st ++ [no_units_msg (b_name b) param]))) /\
  (forall v u,
     p_data = VTuple [v; u] ->
     assign_p_data convert_value b param units param_obj p_data st
       = match (if is_None units && is_None u then Return v
                else convert_value v u units) with
         | Return w =>
             (Return tt,
              Store (<[param_obj := w]> (st_value st)) (st_log st))
         | Raise e => (Raise e, st)
         end).
Proof.
  unfold assign_p_data. split.
  - intros ->. reflexivity.
  - intros v u ->. simpl.
    destruct (is_None units); simpl; [|reflexivity].
    destruct (is_None u); reflexivity.
Qed.

(** X13: a call without index mutates the parameter object found under
    the attribute [param] itself, and only that object, with the raw data
    read from [parameter_data[param]]: bare data becomes the object's value
    as it is, a [(value, unit)] pair becomes the raw or the converted
    value; without that attribute it raises [AttributeError] whatever the
    configuration holds. *)
Theorem set_param_value_unindexed (b : block) (param : string)
    (units : value) (config : option (gmap string value)) (st : store) :
  (forall param_obj parameter_data p_data,
     b_attrs b !! param = Some param_obj ->
     config_or_default b config !! "parameter_data"
       = Some (VDict parameter_data) ->
     parameter_data !! param = Some p_data ->
     (isinstance_tuple p_data = false ->
      set_param_value convert_value b param units config None st
        = (Return tt,
           Store (<[param_obj := p_data]> (st_value st))
                 (st_log st ++ [no_units_msg (b_name b) param]))) /\
     (forall v u,
        p_data = VTuple [v; u] ->
        set_param_value convert_value b param units config None st
          = match (if is_None units && is_None u then Return v
                   else convert_value v u units) with
            | Return w =>
                (Return tt,
                 Store (<[param_obj := w]> (st_value st)) (st_log st))
            | Raise e => (Raise e, st)
            end) /\
     forall l, l <> param_obj ->
       st_value (snd (set_param_value convert_value b param units
                        config None st)) !! l
         = st_value st !! l) /\
  (b_attrs b !! param = None ->
   set_param_value convert_value b param units config None st
     = (Raise (AttributeError (no_attribute_msg false (b_type b) param)),
        st)).
Proof.
  split.
  - intros param_obj parameter_data p_data Hobj Hpd Hd.
    assert (E : set_param_value convert_value b param units config None st
                = assign_p_data convert_value b param units
                    param_obj p_data st).
    { unfold set_param_value, param_lookup, block_getattr, config_getattr.
      rewrite Hobj. simpl. rewrite Hpd. simpl. rewrite Hd. reflexivity. }
    rewrite E.
    destruct (assign_p_data_values b param units param_obj p_data st)
      as [Hbare Hpair].
    split; [exact Hbare|]. split; [exact Hpair|].
    intros l Hne. apply assign_p_data_frame. exact Hne.
  - intros Hobj.
    unfold set_param_value, param_lookup, block_getattr.
    rewrite Hobj. reflexivity.
Qed.

(** X14: when the parameter object exists but the data does not, the
    setter raises [KeyError] and stores nothing: for the parameter's name
    when [parameter_data] has no entry for it (with or without index), and
    for the index when the entry is a dictionary without that index. *)
Theorem set_param_value_missing_data (b : block) (param : string)
    (units : value) (config : option (gmap string value))
    (index : option string) (st : store) (param_obj : positive)
    (parameter_data : gmap string value) :
  b_attrs b !! (match index with
                | None => param
                | Some i => param +:+ "_" +:+ i
                end) = Some param_obj ->
  config_or_default b config !! "parameter_data"
    = Some (VDict parameter_data) ->
  (parameter_data !! param = None ->
   set_param_value convert_value b param units config index st
     = (Raise (KeyError (SStr param)), st)) /\
  (forall i entry,
     index = Some i ->
     parameter_data !! param = Some (VDict entry) ->
     entry !! i = None ->
     set_param_value convert_value b param units config index st
       = (Raise (KeyError (SStr i)), st)).
Proof.
  intros Hobj Hpd. split.
  - intros Hd.
    unfold set_param_value, param_lookup, block_getattr, config_getattr.
    destruct index as [i|]; rewrite Hobj; simpl; rewrite Hpd; simpl;
      rewrite Hd; reflexivity.
  - intros i entry -> Hd Hi.
    unfold set_param_value, param_lookup, block_getattr, config_getattr.
    rewrite Hobj. simpl. rewrite Hpd. simpl. rewrite Hd. simpl.
    rewrite Hi. reflexivity.
Qed.

(** X15: an indexed call on a parameter whose data is not a dictionary (a
    bare number, a [(value, unit)] tuple) raises [TypeError] and stores
    nothing; the data is not used as if it were unindexed. *)
Theorem set_param_value_index_on_plain_data (b : block) (param : string)
    (units : value) (config : option (gmap string value)) (i : string)
    (st : store) (param_obj : positive)
    (parameter_data : gmap string value) (entry : value) :
  b_attrs b !! (param +:+ "_" +:+ i) = Some param_obj ->
  config_or_default b config !! "parameter_data"
    = Some (VDict parameter_data) ->
  parameter_data !! param = Some entry ->
  (forall d, entry <> VDict d) ->
  set_param_value convert_value b param units config (Some i) st
    = (Raise TypeError, st).
Proof.
  intros Hobj Hpd Hd Hentry.
  unfold set_param_value, param_lookup, block_getattr, config_getattr.
  rewrite Hobj. simpl. rewrite Hpd. simpl. rewrite Hd. simpl.
  destruct entry; try reflexivity.
  exfalso. exact (Hentry entries eq_refl).
Qed.

End SetParamMore.

Section SetParamSequences.

Variable convert_value : value -> value -> value -> outcome value.

(** X16: parameter data that is a tuple with fewer than two elements makes
    the setter raise [IndexError], whatever the target unit, and nothing is
    stored or logged. *)
Theorem set_param_value_short_tuple (b : block) (param : string)
    (units : value) (config : option (gmap string value))
    (index : option string) (st : store) (param_obj : positive)
    (xs : list value) :
  param_lookup b param (config_or_default b config) index
    = Return (param_obj, VTuple xs) ->
  length xs < 2 ->
  set_param_value convert_value b param units config index st
    = (Raise IndexError, st).
Proof.
  intros Hlook Hlen. unfold set_param_value. rewrite Hlook.
  unfold assign_p_data. simpl.
  destruct xs as [|x0 [|x1 xs]]; simpl in *; [| |lia];
    destruct (is_None units); reflexivity.
Qed.

(** X17: of a tuple with more than two elements only the first two are
    used: the setter ends exactly as it does for the pair of the first two
    elements. *)
Theorem set_param_value_long_tuple (b : block) (param : string)
    (units : value) (config : option (gmap string value))
    (index : option string) (st : store) (param_obj : positive)
    (v u : value) (rest : list value) :
  param_lookup b param (config_or_default b config) index
    = Return (param_obj, VTuple (v :: u :: rest)) ->
  set_param_value convert_value b param units config index st
    = assign_p_data convert_value b param units param_obj
        (VTuple [v; u]) st.
Proof.
  intros Hlook. unfold set_param_value. rewrite Hlook. reflexivity.
Qed.

(** X18: for parameter data that is a tuple the setter writes nothing to
    the log, whether it assigns the raw value, a converted value, or
    raises. *)
Theorem set_param_value_tuple_no_log (b : block) (param : string)
    (units : value) (config : option (gmap string value))
    (index : option string) (st : store) (param_obj : positive)
    (p_data : value) :
  param_lookup b param (config_or_default b config) index
    = Return (param_obj, p_data) ->
  isinstance_tuple p_data = true ->
  st_log (snd (set_param_value convert_value b param units config index st))
    = st_log st.
Proof.
  intros Hlook Htuple. unfold set_param_value. rewrite Hlook.
  unfold assign_p_data. rewrite Htuple.
  match goal with
  | |- context [match ?c with Return _ => _ | Raise _ => _ end] =>
      destruct c
  end; reflexivity.
Qed.

(** X19: an explicit [config] replaces the block's own configuration,
    with no fallback.  Bare data found in the explicit configuration is
    what gets stored, whatever [b.config] holds for the parameter; and when
    the explicit configuration has no [parameter_data], the call raises
    [AttributeError] and stores nothing, even if [b.config] has the data. *)
Theorem set_param_value_explicit_config (b : block) (param : string)
    (units : value) (config : gmap string value) (st : store)
    (param_obj : positive) :
  b_attrs b !! param = Some param_obj ->
  (forall parameter_data p_data,
     config !! "parameter_data" = Some (VDict parameter_data) ->
     parameter_data !! param = Some p_data ->
     isinstance_tuple p_data = false ->
     set_param_value convert_value b param units (Some config) None st
       = (Return tt,
          Store (<[param_obj := p_data]> (st_value st))
                (st_log st ++ [no_units_msg (b_name b) param]))) /\
  (config !! "parameter_data" = None ->
   exists msg,
     set_param_value convert_value b param units (Some config) None st
       = (Raise (AttributeError msg), st)).
Proof.
  intros Hobj. split.
  - intros parameter_data p_data Hpd Hd Hbare.
    unfold set_param_value, param_lookup, block_getattr, config_getattr.
    rewrite Hobj. simpl. rewrite Hpd. simpl. rewrite Hd. simpl.
    unfold assign_p_data. rewrite Hbare. reflexivity.
  - intros Hpd.
    unfold set_param_value, param_lookup, block_getattr, config_getattr.
    rewrite Hobj. simpl. rewrite Hpd. simpl. eauto.
Qed.

(** X20: two calls that target different parameter objects can be made in
    either order: the stored values are the same afterwards. *)
Theorem set_param_value_commute (b : block) (st : store)
    (param1 param2 : string) (units1 units2 : value)
    (config1 config2 : option (gmap string value))
    (index1 index2 : option string)
    (obj1 obj2 : positive) (data1 data2 : value) :
  param_lookup b param1 (config_or_default b config1) index1
    = Return (obj1, data1) ->
  param_lookup b param2 (config_or_default b config2) index2
    = Return (obj2, data2) ->
  obj1 <> obj2 ->
  st_value
    (snd (set_param_value convert_value b param2 units2 config2 index2
            (snd (set_param_value convert_value b param1 units1 config1
                    index1 st))))
  = st_value
      (snd (set_param_value convert_value b param1 units1 config1 index1
              (snd (set_param_value convert_value b param2 units2 config2
                      index2 st)))).
Proof.
  intros H1 H2 Hne. unfold set_param_value. rewrite H1, H2.
  destruct (assign_p_data_shape convert_value b param1 units1 obj1 data1)
    as [[e1 E1]|(v1 & m1 & E1)];
  destruct (assign_p_data_shape convert_value b param2 units2 obj2 data2)
    as [[e2 E2]|(v2 & m2 & E2)];
  rewrite ?E1, ?E2; simpl; rewrite ?E1, ?E2; simpl; try reflexivity.
  apply insert_insert_ne. congruence.
Qed.

(** X21: the last call decides.  For the same block, parameter and index, a
    call that returns leaves the stored values as if the earlier call, with
    whatever units and configuration, had not been made. *)
Theorem set_param_value_overwrites (b : block) (param : string)
    (index : option string) (st : store)
    (units1 units2 : value) (config1 config2 : option (gmap string value)) :
  fst (set_param_value convert_value b param units2 config2 index st)
    = Return tt ->
  st_value
    (snd (set_param_value convert_value b param units2 config2 index
            (snd (set_param_value convert_value b param units1 config1
                    index st))))
  = st_value
      (snd (set_param_value convert_value b param units2 config2 index st)).
Proof.
  intros Hret.
  destruct (set_param_value_shape convert_value b param units1 config1 index)
    as [[e1 E1]|(l1 & v1 & m1 & Hl1 & E1)];
  destruct (set_param_value_shape convert_value b param units2 config2 index)
    as [[e2 E2]|(l2 & v2 & m2 & Hl2 & E2)].
  - rewrite E1. reflexivity.
  - rewrite E1. reflexivity.
  - rewrite E2 in Hret. discriminate.
  - rewrite E1. simpl. rewrite !E2. simpl.
    assert (l1 = l2) as -> by congruence.
    apply insert_insert_eq.
Qed.

End SetParamSequences.

Lemma set_param_value_unindexed_witness :
  set_param_value cm_to_m ex_block "sigma" VNone None None ex_store_used
    = (Return tt,
       Store (<[ 5%positive := VNum 3 ]> (st_value ex_store_used))
             ["earlier"]) /\
  set_param_value cm_to_m ex_block "omega" (VUnits "m") None None
    ex_store_used
    = (Return tt,
       Store (<[ 4%positive := VNum 2 ]> (st_value ex_store_used))
             ["earlier";
              "H2O no units provided for parameter omega - " +:+
              "assuming default units"]).
Proof.
  split.
  - apply (proj1 (proj2 (proj1 (set_param_value_unindexed cm_to_m ex_block
                                  "sigma" VNone None ex_store_used)
                           5%positive _ (VTuple [VNum 3; VNone])
                           eq_refl eq_refl eq_refl))
             (VNum 3) VNone eq_refl).
  - apply (proj1 (proj1 (set_param_value_unindexed cm_to_m ex_block
                           "omega" (VUnits "m") None ex_store_used)
                    4%positive _ (VNum 2) eq_refl eq_refl eq_refl)).
    reflexivity.
Defined.

(** The explicit configuration gives [omega] the value 5 although the
    block's own configuration says 2; an explicit configuration without
    [parameter_data] makes the call fail although the block has the data. *)
Lemma set_param_value_explicit_config_witness :
  set_param_value cm_to_m ex_block "omega" (VUnits "m")
    (Some {[ "parameter_data" := VDict {[ "omega" := VNum 5 ]} ]})
    None ex_store
    = (Return tt,
       Store {[ 4%positive := VNum 5 ]}
             ["H2O no units provided for parameter omega - " +:+
              "assuming default units"]) /\
  exists msg,
    set_param_value cm_to_m ex_block "omega" (VUnits "m") (Some ∅) None
      ex_store = (Raise (AttributeError msg), ex_store).
Proof.
  split.
  - apply (proj1 (set_param_value_explicit_config cm_to_m ex_block "omega"
                    (VUnits "m") _ ex_store 4%positive eq_refl)
             {[ "omega" := VNum 5 ]} (VNum 5));
      reflexivity.
  - apply (proj2 (set_param_value_explicit_config cm_to_m ex_block "omega"
                    (VUnits "m") ∅ ex_store 4%positive eq_refl)).
    reflexivity.
Defined.

Lemma set_param_value_missing_data_witness :
  set_param_value cm_to_m ex_block_more "zeta" (VUnits "m") None None
    ex_store_used = (Raise (KeyError (SStr "zeta")), ex_store_used) /\
  set_param_value cm_to_m ex_block_more "kappa" (VUnits "m") None (Some "3")
    ex_store_used = (Raise (KeyError (SStr "3")), ex_store_used).
Proof.
  split.
  - apply (proj1 (set_param_value_missing_data cm_to_m ex_block_more "zeta"
                    (VUnits "m") None None ex_store_used 7%positive _
                    eq_refl eq_refl)).
    reflexivity.
  - apply (proj2 (set_param_value_missing_data cm_to_m ex_block_more "kappa"
                    (VUnits "m") None (Some "3") ex_store_used 3%positive _
                    eq_refl eq_refl)
             "3" {[ "1" := VTuple [VNum 2; VUnits "cm"] ]});
      reflexivity.
Defined.

Lemma set_param_value_index_on_plain_data_witness :
  set_param_value cm_to_m ex_block_more "omega" (VUnits "m") None (Some "1")
    ex_store_used = (Raise TypeError, ex_store_used).
Proof.
  apply (set_param_value_index_on_plain_data cm_to_m ex_block_more "omega"
           (VUnits "m") None "1" ex_store_used 2%positive _ (VNum 2)
           eq_refl eq_refl eq_refl).
  intros d E. discriminate E.
Defined.

Lemma set_param_value_short_tuple_witness :
  set_param_value cm_to_m ex_block_more "tau" (VUnits "m") None None
    ex_store_used = (Raise IndexError, ex_store_used).
Proof.
  apply (set_param_value_short_tuple cm_to_m ex_block_more "tau"
           (VUnits "m") None None ex_store_used 4%positive [VNum 4] eq_refl).
  simpl. lia.
Defined.

Lemma set_param_value_long_tuple_witness :
  set_param_value cm_to_m ex_block_more "rho" (VUnits "m") None None
    ex_store_used
  = assign_p_data cm_to_m ex_block_more "rho" (VUnits "m") 5%positive
      (VTuple [VNum 2; VUnits "cm"]) ex_store_used.
Proof.
  apply (set_param_value_long_tuple cm_to_m ex_block_more "rho"
           (VUnits "m") None None ex_store_used 5%positive
           (VNum 2) (VUnits "cm") [VStr "fitted"] eq_refl).
Defined.

Lemma set_param_value_tuple_no_log_witness :
  st_log (snd (set_param_value cm_to_m ex_block "sigma" VNone None None
                 ex_store_used)) = ["earlier"].
Proof.
  apply (set_param_value_tuple_no_log cm_to_m ex_block "sigma" VNone None
           None ex_store_used 5%positive (VTuple [VNum 3; VNone])
           eq_refl eq_refl).
Defined.

Lemma set_param_value_commute_witness :
  st_value
    (snd (set_param_value cm_to_m ex_block "omega" (VUnits "m") None None
            (snd (set_param_value cm_to_m ex_block "kappa" (VUnits "m")
                    None (Some "1") ex_store_used))))
  = st_value
      (snd (set_param_value cm_to_m ex_block "kappa" (VUnits "m") None
              (Some "1")
              (snd (set_param_value cm_to_m ex_block "omega" (VUnits "m")
                      None None ex_store_used)))).
Proof.
  apply (set_param_value_commute cm_to_m ex_block ex_store_used
           "kappa" "omega" (VUnits "m") (VUnits "m") None None
           (Some "1") None 2%positive 4%positive
           (VTuple [VNum 2; VUnits "cm"]) (VNum 2) eq_refl eq_refl).
  discriminate.
Defined.

Lemma set_param_value_overwrites_witness :
  st_value
    (snd (set_param_value cm_to_m ex_block "kappa" (VUnits "m") None
            (Some "1")
            (snd (set_param_value cm_to_m ex_block "kappa" (VUnits "cm")
                    (Some {[ "parameter_data" := ex_parameter_data_more ]})
                    (Some "1") ex_store_used))))
  = st_value
      (snd (set_param_value cm_to_m ex_block "kappa" (VUnits "m") None
              (Some "1") ex_store_used)).
Proof.
  apply (set_param_value_overwrites cm_to_m ex_block "kappa" (Some "1")
           ex_store_used (VUnits "cm") (VUnits "m")
           (Some {[ "parameter_data" := ex_parameter_data_more ]}) None).
  reflexivity.
Defined.
